(** * transact: running a unit of work inside a SQL transaction

    A shallow embedding of the Go package [transact] (transact.go and the
    older three-argument variant of [Do]), together with the properties of
    its commit / rollback discipline.

    Go values are modelled as follows.
    - An [error] is an interface value: [None] is Go's [nil], [Some e] a
      non-nil error.
    - The argument of [panic] and the value of [recover()] are [interface{}]
      values: [None] is [nil], [Some v] a non-nil payload.
    - A Go function that may panic and that works on the database is a
      function from the store of the database to a [run]: how it ended
      ([Return] or [Panic]), the store it left, and the calls it made to
      its collaborators, in order.
    - [*sql.DB] is a record of the three collaborator operations the
      package calls.  By their Go signatures they hand back an [error];
      they are taken not to panic. *)

From Stdlib Require Import List String Lia.
Import ListNotations.

(** ** Package [context] (Go standard library), as far as it is used *)

Module context.

(** What a [context.Context] answers when asked: [Deadline()], [Err()]
    (non-nil once the context is cancelled or past its deadline) and
    the values it carries. *)
Record Context : Type := mkContext {
  Deadline : option nat;
  Err : option string;
  Values : list (string * string)
}.

(** [context.Background()]: never cancelled, no deadline, no values. *)
Definition Background : Context :=
  {| Deadline := None; Err := None; Values := [] |}.

(** [context.WithCancel(parent)], before its cancel function is called. *)
Definition WithCancel (parent : Context) : Context :=
  {| Deadline := Deadline parent; Err := Err parent; Values := Values parent |}.

(** The same context once its cancel function has been called. *)
Definition cancelled (c : Context) : Context :=
  {| Deadline := Deadline c;
     Err := match Err c with Some e => Some e | None => Some "context canceled"%string end;
     Values := Values c |}.

End context.

Section Go.

(** [E]: non-nil errors; [P]: non-nil panic payloads; [S]: the store of
    the database behind the handle; [Tx]: transaction handles. *)
Variables E P S Tx : Type.

Definition error : Type := option E.
Definition any : Type := option P.

(** The calls the helper makes to its collaborators. *)
Inductive Op : Type :=
| OpBeginTx (ctx : context.Context)
| OpTxFunc (tx : Tx)
| OpCommit (tx : Tx)
| OpRollback (tx : Tx).

Definition is_begin (o : Op) : bool :=
  match o with OpBeginTx _ => true | _ => false end.
Definition is_txfunc (o : Op) : bool :=
  match o with OpTxFunc _ => true | _ => false end.
Definition is_commit (o : Op) : bool :=
  match o with OpCommit _ => true | _ => false end.
Definition is_rollback (o : Op) : bool :=
  match o with OpRollback _ => true | _ => false end.
Definition is_final (o : Op) : bool := is_commit o || is_rollback o.

Definition count (p : Op -> bool) (l : list Op) : nat := List.length (filter p l).

(** How a Go call ends. *)
Inductive result (A : Type) : Type :=
| Return (a : A)
| Panic (v : any).
Arguments Return {A} a.
Arguments Panic {A} v.

Record run (A : Type) : Type := Run {
  outcome : result A;
  store : S;
  ops : list Op
}.
Arguments Run {A} _ _ _.
Arguments outcome {A} _.
Arguments store {A} _.
Arguments ops {A} _.

Definition M (A : Type) : Type := S -> run A.

Definition ret {A} (a : A) : M A := fun s => Run (Return a) s [].

(** [panic(v)] *)
Definition panic {A} (v : any) : M A := fun s => Run (Panic v) s [].

Definition bind {A B} (m : M A) (k : A -> M B) : M B :=
  fun s =>
    let r1 := m s in
    match outcome r1 with
    | Return a =>
        let r2 := k a (store r1) in
        Run (outcome r2) (store r2) (ops r1 ++ ops r2)
    | Panic v => Run (Panic v) (store r1) (ops r1)
    end.

(** A call to a collaborator that hands back a value. *)
Definition call {A} (o : Op) (f : S -> A * S) : M A :=
  fun s => let (a, s') := f s in Run (Return a) s' [o].

(** A call to a caller-supplied function, which may panic. *)
Definition invoke {A} (o : Op) (f : S -> result A * S) : M A :=
  fun s => let (r, s') := f s in Run r s' [o].

(** [recover()] called directly by a deferred function: the payload of
    the panic in flight, [nil] when there is none.  Calling it stops the
    panic, also when the payload is [nil]. *)
Definition recover {A} (r : result A) : any :=
  match r with
  | Panic v => v
  | Return _ => None
  end.

(** The frame of a function with the named result [err] and one deferred
    closure that starts by calling [recover()].

    [return body]: when [body] returns, its value is stored in [err];
    when it panics, [err] keeps the value it had.  Then the deferred
    closure runs, with what [recover()] gave it and with [err]; the value
    it leaves in [err] is what the function returns, unless the closure
    panics itself. *)
Definition defer_return (err : error) (body : M error)
    (deferred : any -> error -> M error) : M error :=
  fun s =>
    let r1 := body s in
    let err' := match outcome r1 with Return e => e | Panic _ => err end in
    let r2 := deferred (recover (outcome r1)) err' (store r1) in
    Run (outcome r2) (store r2) (ops r1 ++ ops r2).

(** [*sql.DB] and the [*sql.Tx] it hands out: [db.BeginTx(ctx, nil)],
    [tx.Commit()], [tx.Rollback()]. *)
Record DB : Type := mkDB {
  BeginTx : context.Context -> S -> (Tx * error) * S;
  Commit : Tx -> S -> error * S;
  Rollback : Tx -> S -> error * S
}.

(** The unit of work, a Go [func] from a [*sql.Tx] to an [error]. *)
Definition TxFunc : Type := Tx -> S -> result error * S.

(** The unit of work ended with nil: it returned nil, or it panicked with
    a nil payload. *)
Definition ended_nil (r : result error) : Prop :=
  r = Return None \/ r = Panic None.

(** The unit of work ended with something: a non-nil error or a non-nil
    panic payload. *)
Definition ended_non_nil (r : result error) : Prop :=
  (exists e, r = Return (Some e)) \/ (exists v, r = Panic (Some v)).

End Go.

Arguments Return {P A} a.
Arguments Panic {P A} v.
Arguments Run {P S Tx A} _ _ _.
Arguments outcome {P S Tx A} _.
Arguments store {P S Tx A} _.
Arguments ops {P S Tx A} _.
Arguments OpBeginTx {Tx} ctx.
Arguments OpTxFunc {Tx} tx.
Arguments OpCommit {Tx} tx.
Arguments OpRollback {Tx} tx.
Arguments is_begin {Tx} o.
Arguments is_txfunc {Tx} o.
Arguments is_commit {Tx} o.
Arguments is_rollback {Tx} o.
Arguments is_final {Tx} o.
Arguments count {Tx} p l.
Arguments ret {P S Tx A} a _.
Arguments panic {P S Tx A} v _.
Arguments bind {P S Tx A B} m k _.
Arguments call {P S Tx A} o f _.
Arguments invoke {P S Tx A} o f _.
Arguments recover {P A} r.
Arguments defer_return {E P S Tx} err body deferred _.
Arguments mkDB {E S Tx} _ _ _.
Arguments BeginTx {E S Tx} _ _ _.
Arguments Commit {E S Tx} _ _ _.
Arguments Rollback {E S Tx} _ _ _.
Arguments ended_nil {E P} r.
Arguments ended_non_nil {E P} r.

Declare Scope go_scope.
Notation "x <- c1 ;; c2" := (bind c1 (fun x => c2))
  (at level 61, c1 at next level, right associativity) : go_scope.
Notation "c1 ;;; c2" := (bind c1 (fun _ => c2))
  (at level 61, right associativity) : go_scope.
Local Open Scope go_scope.

(** ** Package [transact] *)

Section Transact.

Variables E P S Tx : Type.

(** transact.go, [DoContext]. *)
Definition DoContext (ctx : context.Context) (db : DB E S Tx)
    (txFunc : TxFunc E P S Tx) : M P S Tx (error E) :=
  r <- call (OpBeginTx ctx) (BeginTx db ctx) ;;
  let tx := fst r in
  let err := snd r in
  match err with
  | Some _ => ret err
  | None =>
      defer_return err
        (invoke (OpTxFunc tx) (txFunc tx))
        (fun pErr err =>
           match pErr with
           | Some _ =>
               call (OpRollback tx) (Rollback db tx) ;;;
               panic pErr
           | None =>
               match err with
               | None => call (OpCommit tx) (Commit db tx)
               | Some _ =>
                   call (OpRollback tx) (Rollback db tx) ;;;
                   ret err
               end
           end)
  end.

(** transact.go, [Do]. *)
Definition Do (db : DB E S Tx) (txFunc : TxFunc E P S Tx) : M P S Tx (error E) :=
  DoContext context.Background db txFunc.

(** The database handle [db] with its rollback operation replaced. *)
Definition with_rollback (db : DB E S Tx) (rb : Tx -> S -> error E * S) : DB E S Tx :=
  {| BeginTx := BeginTx db; Commit := Commit db; Rollback := rb |}.

End Transact.

Arguments DoContext {E P S Tx} ctx db txFunc _.
Arguments Do {E P S Tx} db txFunc _.
Arguments with_rollback {E S Tx} db rb.

(** ** The older variant, with [Do] taking the context itself *)

Module Legacy.

Section Legacy.

Variables E P S Tx : Type.

(** [Do] of the older variant of the package. *)
Definition Do (ctx : context.Context) (db : DB E S Tx)
    (txFunc : TxFunc E P S Tx) : M P S Tx (error E) :=
  r <- call (OpBeginTx ctx) (BeginTx db ctx) ;;
  let tx := fst r in
  let err := snd r in
  match err with
  | Some _ => ret err
  | None =>
      defer_return err
        (invoke (OpTxFunc tx) (txFunc tx))
        (fun pErr err =>
           match pErr with
           | Some _ =>
               call (OpRollback tx) (Rollback db tx) ;;;
               panic pErr
           | None =>
               match err with
               | None => call (OpCommit tx) (Commit db tx)
               | Some _ =>
                   call (OpRollback tx) (Rollback db tx) ;;;
                   ret err
               end
           end)
  end.

End Legacy.

Arguments Do {E P S Tx} ctx db txFunc _.

End Legacy.

(** ** A database to run the helper against

    A small in-memory database in the manner of the mock the test suite
    uses: transactions are numbered, a transaction can be finished once,
    and the connection can be lost. *)

Module Mock.

Record state : Type := mkState {
  next_id : nat;
  active : list nat;
  committed : list nat;
  rolled_back : list nat;
  broken : bool
}.

Definition ErrTxDone : string :=
  "sql: transaction has already been committed or rolled back".
Definition ErrBadConn : string := "driver: bad connection".
Definition AnError : string := "assert.AnError general error for testing".

Definition is_active (tx : nat) (s : state) : bool :=
  existsb (Nat.eqb tx) (active s).

Definition close (tx : nat) (s : state) : list nat :=
  filter (fun t => negb (Nat.eqb tx t)) (active s).

Definition begin_tx (ctx : context.Context) (s : state)
    : (nat * error string) * state :=
  match context.Err ctx with
  | Some e => ((0, Some e), s)
  | None =>
      if broken s then ((0, Some ErrBadConn), s)
      else ((next_id s, None),
            {| next_id := Datatypes.S (next_id s);
               active := next_id s :: active s;
               committed := committed s;
               rolled_back := rolled_back s;
               broken := false |})
  end.

Definition commit (tx : nat) (s : state) : error string * state :=
  if is_active tx s then
    if broken s then
      (Some ErrBadConn,
       {| next_id := next_id s; active := close tx s; committed := committed s;
          rolled_back := rolled_back s; broken := true |})
    else
      (None,
       {| next_id := next_id s; active := close tx s;
          committed := tx :: committed s;
          rolled_back := rolled_back s; broken := false |})
  else (Some ErrTxDone, s).

Definition rollback (tx : nat) (s : state) : error string * state :=
  if is_active tx s then
    (if broken s then Some ErrBadConn else None,
     {| next_id := next_id s; active := close tx s; committed := committed s;
        rolled_back := tx :: rolled_back s; broken := broken s |})
  else (Some ErrTxDone, s).

Definition db : DB string state nat :=
  {| BeginTx := begin_tx; Commit := commit; Rollback := rollback |}.

(** A rollback that always fails and leaves the transaction as it is. *)
Definition failing_rollback (tx : nat) (s : state) : error string * state :=
  (Some ErrBadConn, s).

Definition fresh : state :=
  {| next_id := 1; active := []; committed := []; rolled_back := [];
     broken := false |}.

Definition lost : state :=
  {| next_id := 1; active := []; committed := []; rolled_back := [];
     broken := true |}.

(** The units of work of the test suite: one returns [assert.AnError], one
    panics with it, one returns [nil]. *)
Definition failing : TxFunc string string state nat :=
  fun tx s => (Return (Some AnError), s).
Definition panicking : TxFunc string string state nat :=
  fun tx s => (Panic (Some AnError), s).
Definition succeeding : TxFunc string string state nat :=
  fun tx s => (Return None, s).

(** [panic(nil)] *)
Definition panicking_nil : TxFunc string string state nat :=
  fun tx s => (Panic None, s).

(** A unit of work during which the connection is lost. *)
Definition disconnect (s : state) : state :=
  {| next_id := next_id s; active := active s; committed := committed s;
     rolled_back := rolled_back s; broken := true |}.
Definition failing_offline : TxFunc string string state nat :=
  fun tx s => (Return (Some AnError), disconnect s).
Definition panicking_offline : TxFunc string string state nat :=
  fun tx s => (Panic (Some AnError), disconnect s).
Definition succeeding_offline : TxFunc string string state nat :=
  fun tx s => (Return None, disconnect s).

(** The context of the test suite, [context.WithCancel(context.Background())]. *)
Definition ctx : context.Context := context.WithCancel context.Background.

(** The store once transaction 1 is begun on [fresh], and that store
    with the connection lost. *)
Definition begun : state :=
  {| next_id := 2; active := [1]; committed := []; rolled_back := [];
     broken := false |}.
Definition begun_offline : state := disconnect begun.

End Mock.

(** * Properties *)

(** ** The run of [DoContext] on each path *)

Section Paths.

Variables E P S Tx : Type.
Variable ctx : context.Context.
Variable db : DB E S Tx.
Variable txFunc : TxFunc E P S Tx.

Ltac go_step :=
  unfold DoContext, bind, call, invoke, defer_return, ret, panic, recover;
  cbn [outcome store ops fst snd app].

(** Beginning fails: nothing else happens. *)
Lemma DoContext_begin_failed (s s1 : S) (tx : Tx) (e : E) :
  BeginTx db ctx s = ((tx, Some e), s1) ->
  DoContext ctx db txFunc s = Run (Return (Some e)) s1 [OpBeginTx ctx].
Proof.
  intros Hb. go_step. rewrite Hb. reflexivity.
Qed.

(** The unit of work returns a non-nil error. *)
Lemma DoContext_work_failed (s s1 s2 : S) (tx : Tx) (e : E) :
  BeginTx db ctx s = ((tx, None), s1) ->
  txFunc tx s1 = (Return (Some e), s2) ->
  DoContext ctx db txFunc s =
    Run (Return (Some e)) (snd (Rollback db tx s2))
        [OpBeginTx ctx; OpTxFunc tx; OpRollback tx].
Proof.
  intros Hb Hw. go_step. rewrite Hb. cbn. rewrite Hw. cbn.
  destruct (Rollback db tx s2) as [rerr s3]. reflexivity.
Qed.

(** The unit of work panics with a non-nil payload. *)
Lemma DoContext_work_panicked (s s1 s2 : S) (tx : Tx) (v : P) :
  BeginTx db ctx s = ((tx, None), s1) ->
  txFunc tx s1 = (Panic (Some v), s2) ->
  DoContext ctx db txFunc s =
    Run (Panic (Some v)) (snd (Rollback db tx s2))
        [OpBeginTx ctx; OpTxFunc tx; OpRollback tx].
Proof.
  intros Hb Hw. go_step. rewrite Hb. cbn. rewrite Hw. cbn.
  destruct (Rollback db tx s2) as [rerr s3]. reflexivity.
Qed.

(** The unit of work returns nil. *)
Lemma DoContext_work_succeeded (s s1 s2 : S) (tx : Tx) :
  BeginTx db ctx s = ((tx, None), s1) ->
  txFunc tx s1 = (Return None, s2) ->
  DoContext ctx db txFunc s =
    Run (Return (fst (Commit db tx s2))) (snd (Commit db tx s2))
        [OpBeginTx ctx; OpTxFunc tx; OpCommit tx].
Proof.
  intros Hb Hw. go_step. rewrite Hb. cbn. rewrite Hw. cbn.
  destruct (Commit db tx s2) as [cerr s3]. reflexivity.
Qed.

(** The unit of work panics with nil. *)
Lemma DoContext_work_panicked_nil (s s1 s2 : S) (tx : Tx) :
  BeginTx db ctx s = ((tx, None), s1) ->
  txFunc tx s1 = (Panic None, s2) ->
  DoContext ctx db txFunc s =
    Run (Return (fst (Commit db tx s2))) (snd (Commit db tx s2))
        [OpBeginTx ctx; OpTxFunc tx; OpCommit tx].
Proof.
  intros Hb Hw. go_step. rewrite Hb. cbn. rewrite Hw. cbn.
  destruct (Commit db tx s2) as [cerr s3]. reflexivity.
Qed.

End Paths.

(** ** The contract of the helper *)

Section Contract.

Variables E P S Tx : Type.
Variable ctx : context.Context.
Variable db : DB E S Tx.
Variable txFunc : TxFunc E P S Tx.

(** Every run of the unit of work ends in one of four ways. *)
Lemma result_cases (r : result P (error E)) :
  (exists e, r = Return (Some e)) \/ r = Return None \/
  (exists v, r = Panic (Some v)) \/ r = Panic None.
Proof.
  destruct r as [[e|]|[v|]]; eauto.
Qed.

(** Once the transaction is begun, the calls of the helper are the begin,
    the unit of work and one finalization of that transaction. *)
Lemma DoContext_begun_ops (s s1 : S) (tx : Tx) :
  BeginTx db ctx s = ((tx, None), s1) ->
  ops (DoContext ctx db txFunc s) = [OpBeginTx ctx; OpTxFunc tx; OpCommit tx] \/
  ops (DoContext ctx db txFunc s) = [OpBeginTx ctx; OpTxFunc tx; OpRollback tx].
Proof.
  intros Hb.
  destruct (txFunc tx s1) as [r s2] eqn:Hw.
  destruct (result_cases r) as [[e ->]|[->|[[v ->]| ->]]].
  - right. now rewrite (DoContext_work_failed _ _ _ _ _ _ _ _ _ _ _ _ Hb Hw).
  - left. now rewrite (DoContext_work_succeeded _ _ _ _ _ _ _ _ _ _ _ Hb Hw).
  - right. now rewrite (DoContext_work_panicked _ _ _ _ _ _ _ _ _ _ _ _ Hb Hw).
  - left. now rewrite (DoContext_work_panicked_nil _ _ _ _ _ _ _ _ _ _ _ Hb Hw).
Qed.

(** C1. When beginning the transaction succeeds, the helper performs
    exactly one finalization, a commit or a rollback of the transaction
    it began, exactly once and as its last call, however the unit of work
    ends: returning nil, returning an error, or panicking. *)
Theorem exactly_one_finalization (s s1 : S) (tx : Tx) :
  BeginTx db ctx s = ((tx, None), s1) ->
  count is_final (ops (DoContext ctx db txFunc s)) = 1 /\
  count is_commit (ops (DoContext ctx db txFunc s))
    + count is_rollback (ops (DoContext ctx db txFunc s)) = 1 /\
  exists fin,
    (fin = OpCommit tx \/ fin = OpRollback tx) /\
    ops (DoContext ctx db txFunc s) = [OpBeginTx ctx; OpTxFunc tx; fin].
Proof.
  intros Hb.
  destruct (DoContext_begun_ops s s1 tx Hb) as [-> | ->];
    (split; [reflexivity | split; [reflexivity | eauto]]).
Qed.

(** C2. When the unit of work returns a non-nil error, the helper begins
    the transaction, calls the unit of work, rolls the transaction back,
    never commits, and returns that same error. *)
Theorem failure_rolls_back_and_returns_it (s s1 s2 : S) (tx : Tx) (e : E) :
  BeginTx db ctx s = ((tx, None), s1) ->
  txFunc tx s1 = (Return (Some e), s2) ->
  outcome (DoContext ctx db txFunc s) = Return (Some e) /\
  ops (DoContext ctx db txFunc s) = [OpBeginTx ctx; OpTxFunc tx; OpRollback tx] /\
  count is_commit (ops (DoContext ctx db txFunc s)) = 0 /\
  store (DoContext ctx db txFunc s) = snd (Rollback db tx s2).
Proof.
  intros Hb Hw.
  rewrite (DoContext_work_failed _ _ _ _ _ _ _ _ _ _ _ _ Hb Hw).
  repeat split.
Qed.

(** C4. When the unit of work returns nil, the helper begins the
    transaction, calls the unit of work, commits, never rolls back, and
    returns what the commit returned: nil when the commit succeeded, the
    error of the commit when it failed. *)
Theorem success_commits (s s1 s2 s3 : S) (tx : Tx) (cerr : error E) :
  BeginTx db ctx s = ((tx, None), s1) ->
  txFunc tx s1 = (Return None, s2) ->
  Commit db tx s2 = (cerr, s3) ->
  outcome (DoContext ctx db txFunc s) = Return cerr /\
  ops (DoContext ctx db txFunc s) = [OpBeginTx ctx; OpTxFunc tx; OpCommit tx] /\
  count is_rollback (ops (DoContext ctx db txFunc s)) = 0 /\
  store (DoContext ctx db txFunc s) = s3.
Proof.
  intros Hb Hw Hc.
  rewrite (DoContext_work_succeeded _ _ _ _ _ _ _ _ _ _ _ Hb Hw), Hc.
  repeat split.
Qed.

(** C5. When beginning the transaction fails, the helper returns the
    error of the begin as it is, and makes no other call: the unit of
    work is not invoked (the store is the one the begin left, and no unit
    of work changes the run), and there is neither commit nor rollback. *)
Theorem begin_failure_is_returned (s s1 : S) (tx : Tx) (e : E) :
  BeginTx db ctx s = ((tx, Some e), s1) ->
  outcome (DoContext ctx db txFunc s) = Return (Some e) /\
  ops (DoContext ctx db txFunc s) = [OpBeginTx ctx] /\
  store (DoContext ctx db txFunc s) = s1 /\
  count is_txfunc (ops (DoContext ctx db txFunc s)) = 0 /\
  count is_commit (ops (DoContext ctx db txFunc s)) = 0 /\
  count is_rollback (ops (DoContext ctx db txFunc s)) = 0 /\
  forall other : TxFunc E P S Tx,
    DoContext ctx db other s = DoContext ctx db txFunc s.
Proof.
  intros Hb.
  rewrite (DoContext_begin_failed _ _ _ _ ctx db txFunc _ _ _ _ Hb).
  repeat split.
  intros other. now rewrite (DoContext_begin_failed _ _ _ _ ctx db other _ _ _ _ Hb).
Qed.

(** C9. When the unit of work panics with a nil payload, so that
    [recover()] gives nil, the branch for panics is not taken: the
    transaction is committed, not rolled back, and the helper returns what
    the commit returned instead of panicking. *)
Theorem nil_panic_commits (s s1 s2 s3 : S) (tx : Tx) (cerr : error E) :
  BeginTx db ctx s = ((tx, None), s1) ->
  txFunc tx s1 = (Panic None, s2) ->
  Commit db tx s2 = (cerr, s3) ->
  outcome (DoContext ctx db txFunc s) = Return cerr /\
  ops (DoContext ctx db txFunc s) = [OpBeginTx ctx; OpTxFunc tx; OpCommit tx] /\
  count is_rollback (ops (DoContext ctx db txFunc s)) = 0 /\
  store (DoContext ctx db txFunc s) = s3.
Proof.
  intros Hb Hw Hc.
  rewrite (DoContext_work_panicked_nil _ _ _ _ _ _ _ _ _ _ _ Hb Hw), Hc.
  repeat split.
Qed.

End Contract.

(** ** Failures of the collaborators *)

Section Failures.

Variables E P S Tx : Type.
Variable ctx : context.Context.
Variable db : DB E S Tx.
Variable txFunc : TxFunc E P S Tx.

(** What the helper returns or re-raises never depends on the rollback
    operation of the database handle. *)
Lemma outcome_ignores_rollback (rb : Tx -> S -> error E * S) (s : S) :
  outcome (DoContext ctx (with_rollback db rb) txFunc s) =
  outcome (DoContext ctx db txFunc s).
Proof.
  destruct (BeginTx db ctx s) as [[tx [e|]] s1] eqn:Hb.
  - rewrite (DoContext_begin_failed _ _ _ _ ctx db txFunc _ _ _ _ Hb).
    now rewrite (DoContext_begin_failed _ _ _ _ ctx (with_rollback db rb) txFunc _ _ _ _ Hb).
  - destruct (txFunc tx s1) as [r s2] eqn:Hw.
    destruct (result_cases E P r) as [[e ->]|[->|[[v ->]| ->]]].
    + rewrite (DoContext_work_failed _ _ _ _ ctx db txFunc _ _ _ _ _ Hb Hw).
      now rewrite (DoContext_work_failed _ _ _ _ ctx (with_rollback db rb) txFunc _ _ _ _ _ Hb Hw).
    + rewrite (DoContext_work_succeeded _ _ _ _ ctx db txFunc _ _ _ _ Hb Hw).
      now rewrite (DoContext_work_succeeded _ _ _ _ ctx (with_rollback db rb) txFunc _ _ _ _ Hb Hw).
    + rewrite (DoContext_work_panicked _ _ _ _ ctx db txFunc _ _ _ _ _ Hb Hw).
      now rewrite (DoContext_work_panicked _ _ _ _ ctx (with_rollback db rb) txFunc _ _ _ _ _ Hb Hw).
    + rewrite (DoContext_work_panicked_nil _ _ _ _ ctx db txFunc _ _ _ _ Hb Hw).
      now rewrite (DoContext_work_panicked_nil _ _ _ _ ctx (with_rollback db rb) txFunc _ _ _ _ Hb Hw).
Qed.

(** C6. On the paths that roll back (the unit of work returned a non-nil
    error, or panicked with a non-nil payload), what the rollback returns
    is dropped: the helper returns that error, or re-raises that payload,
    whatever the rollback returned, and it would do the same with any
    other rollback operation in its place. *)
Theorem rollback_failure_is_discarded
    (s s1 s2 s3 : S) (tx : Tx) (r : result P (error E)) (rerr : error E)
    (rb : Tx -> S -> error E * S) :
  BeginTx db ctx s = ((tx, None), s1) ->
  txFunc tx s1 = (r, s2) ->
  (exists e, r = Return (Some e)) \/ (exists v, r = Panic (Some v)) ->
  Rollback db tx s2 = (rerr, s3) ->
  DoContext ctx db txFunc s =
    Run r s3 [OpBeginTx ctx; OpTxFunc tx; OpRollback tx] /\
  outcome (DoContext ctx (with_rollback db rb) txFunc s) = r /\
  ops (DoContext ctx (with_rollback db rb) txFunc s) =
    [OpBeginTx ctx; OpTxFunc tx; OpRollback tx] /\
  (forall (rb' : Tx -> S -> error E * S) (s' : S),
     outcome (DoContext ctx (with_rollback db rb') txFunc s') =
     outcome (DoContext ctx db txFunc s')).
Proof.
  intros Hb Hw Hpath Hr.
  assert (Hb' : BeginTx (with_rollback db rb) ctx s = ((tx, None), s1)) by exact Hb.
  pose proof outcome_ignores_rollback as Hany.
  destruct Hpath as [[e ->] | [v ->]].
  - rewrite (DoContext_work_failed _ _ _ _ _ _ _ _ _ _ _ _ Hb Hw), Hr.
    rewrite (DoContext_work_failed _ _ _ _ _ _ _ _ _ _ _ _ Hb' Hw).
    repeat split; exact Hany.
  - rewrite (DoContext_work_panicked _ _ _ _ _ _ _ _ _ _ _ _ Hb Hw), Hr.
    rewrite (DoContext_work_panicked _ _ _ _ _ _ _ _ _ _ _ _ Hb' Hw).
    repeat split; exact Hany.
Qed.

(** C8. In every call the helper begins once, and commits or rolls back
    at most once altogether: its calls are the begin alone, or the begin,
    the unit of work and one finalization, which is its last call.
    Nothing follows a failed begin, and after a failed commit the helper
    returns the error of the commit without rolling back. *)
Theorem no_retry (s : S) :
  count is_begin (ops (DoContext ctx db txFunc s)) = 1 /\
  count is_commit (ops (DoContext ctx db txFunc s)) <= 1 /\
  count is_rollback (ops (DoContext ctx db txFunc s)) <= 1 /\
  count is_commit (ops (DoContext ctx db txFunc s))
    + count is_rollback (ops (DoContext ctx db txFunc s)) <= 1 /\
  (ops (DoContext ctx db txFunc s) = [OpBeginTx ctx] \/
   exists tx,
     ops (DoContext ctx db txFunc s) = [OpBeginTx ctx; OpTxFunc tx; OpCommit tx] \/
     ops (DoContext ctx db txFunc s) = [OpBeginTx ctx; OpTxFunc tx; OpRollback tx]) /\
  (forall tx e s1,
     BeginTx db ctx s = ((tx, Some e), s1) ->
     ops (DoContext ctx db txFunc s) = [OpBeginTx ctx]) /\
  (forall tx s1 s2 e s3,
     BeginTx db ctx s = ((tx, None), s1) ->
     txFunc tx s1 = (Return None, s2) ->
     Commit db tx s2 = (Some e, s3) ->
     DoContext ctx db txFunc s =
       Run (Return (Some e)) s3 [OpBeginTx ctx; OpTxFunc tx; OpCommit tx]).
Proof.
  assert (Hshape :
    ops (DoContext ctx db txFunc s) = [OpBeginTx ctx] \/
    exists tx,
      ops (DoContext ctx db txFunc s) = [OpBeginTx ctx; OpTxFunc tx; OpCommit tx] \/
      ops (DoContext ctx db txFunc s) = [OpBeginTx ctx; OpTxFunc tx; OpRollback tx]).
  { destruct (BeginTx db ctx s) as [[tx [e|]] s1] eqn:Hb.
    - left. now rewrite (DoContext_begin_failed _ _ _ _ ctx db txFunc _ _ _ _ Hb).
    - right. exists tx. exact (DoContext_begun_ops _ _ _ _ ctx db txFunc s s1 tx Hb). }
  split; [|split; [|split; [|split; [|split; [exact Hshape|split]]]]].
  - destruct Hshape as [-> | [tx [-> | ->]]]; reflexivity.
  - destruct Hshape as [-> | [tx [-> | ->]]]; cbn; lia.
  - destruct Hshape as [-> | [tx [-> | ->]]]; cbn; lia.
  - destruct Hshape as [-> | [tx [-> | ->]]]; cbn; lia.
  - intros tx e s1 Hb.
    now rewrite (DoContext_begin_failed _ _ _ _ ctx db txFunc _ _ _ _ Hb).
  - intros tx s1 s2 e s3 Hb Hw Hc.
    now rewrite (DoContext_work_succeeded _ _ _ _ ctx db txFunc _ _ _ _ Hb Hw), Hc.
Qed.

End Failures.

(** ** The two other entry points *)

(** C7. [Do] on a database handle and a unit of work is [DoContext] on
    [context.Background()], a context with no deadline that is never
    cancelled: the two make the same calls, leave the same store and
    return the same error or raise the same panic. *)
Theorem Do_is_DoContext_Background (E P S Tx : Type)
    (db : DB E S Tx) (txFunc : TxFunc E P S Tx) (s : S) :
  Do db txFunc s = DoContext context.Background db txFunc s /\
  context.Deadline context.Background = None /\
  context.Err context.Background = None.
Proof.
  repeat split.
Qed.

(** C10. The older [Do], which takes the context as its first argument,
    does what [DoContext] does on every context, database handle, unit of
    work and store: the same calls, the same store, the same error
    returned or the same panic raised. *)
Theorem Legacy_Do_is_DoContext (E P S Tx : Type) (ctx : context.Context)
    (db : DB E S Tx) (txFunc : TxFunc E P S Tx) (s : S) :
  Legacy.Do ctx db txFunc s = DoContext ctx db txFunc s.
Proof.
  unfold Legacy.Do, DoContext.
  destruct (BeginTx db ctx s) as [[tx [e|]] s1] eqn:Hb; reflexivity.
Qed.

(** ** The helper on the in-memory database *)

(** The three cases of the test suite. *)
Example scenario_A_failure :
  DoContext Mock.ctx Mock.db Mock.failing Mock.fresh =
    Run (Return (Some Mock.AnError))
        {| Mock.next_id := 2; Mock.active := []; Mock.committed := [];
           Mock.rolled_back := [1]; Mock.broken := false |}
        [OpBeginTx Mock.ctx; OpTxFunc 1; OpRollback 1].
Proof. reflexivity. Qed.

Example scenario_B_panic :
  DoContext Mock.ctx Mock.db Mock.panicking Mock.fresh =
    Run (Panic (Some Mock.AnError))
        {| Mock.next_id := 2; Mock.active := []; Mock.committed := [];
           Mock.rolled_back := [1]; Mock.broken := false |}
        [OpBeginTx Mock.ctx; OpTxFunc 1; OpRollback 1].
Proof. reflexivity. Qed.

Example scenario_C_success :
  DoContext Mock.ctx Mock.db Mock.succeeding Mock.fresh =
    Run (Return None)
        {| Mock.next_id := 2; Mock.active := []; Mock.committed := [1];
           Mock.rolled_back := []; Mock.broken := false |}
        [OpBeginTx Mock.ctx; OpTxFunc 1; OpCommit 1].
Proof. reflexivity. Qed.

(** C3. The package documents that any panic of the unit of work is
    recovered, rolls the transaction back and is raised again with its
    payload.  On a unit of work that calls [panic(nil)] the helper does
    otherwise: it commits transaction 1 and returns nil, it does not roll
    back and it does not panic. *)
Theorem nil_panic_is_committed_on_mock :
  Mock.panicking_nil 1 Mock.begun = (Panic None, Mock.begun) /\
  outcome (DoContext Mock.ctx Mock.db Mock.panicking_nil Mock.fresh) = Return None /\
  outcome (DoContext Mock.ctx Mock.db Mock.panicking_nil Mock.fresh) <> Panic None /\
  ops (DoContext Mock.ctx Mock.db Mock.panicking_nil Mock.fresh) =
    [OpBeginTx Mock.ctx; OpTxFunc 1; OpCommit 1] /\
  count is_rollback (ops (DoContext Mock.ctx Mock.db Mock.panicking_nil Mock.fresh)) = 0 /\
  Mock.committed (store (DoContext Mock.ctx Mock.db Mock.panicking_nil Mock.fresh)) = [1].
Proof.
  repeat split. cbn. discriminate.
Qed.

(** A panic with a payload, the connection being lost meanwhile. *)
Lemma exactly_one_finalization_witness :
  BeginTx Mock.db Mock.ctx Mock.fresh = ((1, None), Mock.begun) /\
  count is_final (ops (DoContext Mock.ctx Mock.db Mock.panicking_offline Mock.fresh)) = 1.
Proof.
  split; [reflexivity|].
  apply (exactly_one_finalization string string Mock.state nat
           Mock.ctx Mock.db Mock.panicking_offline Mock.fresh Mock.begun 1).
  reflexivity.
Defined.

Lemma failure_rolls_back_and_returns_it_witness :
  BeginTx Mock.db Mock.ctx Mock.fresh = ((1, None), Mock.begun) /\
  Mock.failing 1 Mock.begun = (Return (Some Mock.AnError), Mock.begun) /\
  outcome (DoContext Mock.ctx Mock.db Mock.failing Mock.fresh) =
    Return (Some Mock.AnError).
Proof.
  split; [reflexivity | split; [reflexivity|]].
  apply (failure_rolls_back_and_returns_it string string Mock.state nat
           Mock.ctx Mock.db Mock.failing Mock.fresh Mock.begun Mock.begun 1
           Mock.AnError); reflexivity.
Defined.

Lemma success_commits_witness :
  BeginTx Mock.db Mock.ctx Mock.fresh = ((1, None), Mock.begun) /\
  Mock.succeeding 1 Mock.begun = (Return None, Mock.begun) /\
  Commit Mock.db 1 Mock.begun = (None, snd (Mock.commit 1 Mock.begun)) /\
  outcome (DoContext Mock.ctx Mock.db Mock.succeeding Mock.fresh) = Return None.
Proof.
  split; [reflexivity | split; [reflexivity | split; [reflexivity|]]].
  apply (success_commits string string Mock.state nat
           Mock.ctx Mock.db Mock.succeeding Mock.fresh Mock.begun Mock.begun
           (snd (Mock.commit 1 Mock.begun)) 1 None); reflexivity.
Defined.

(** A commit that fails: the connection is lost during the unit of work. *)
Example commit_failure_is_returned :
  DoContext Mock.ctx Mock.db Mock.succeeding_offline Mock.fresh =
    Run (Return (Some Mock.ErrBadConn))
        {| Mock.next_id := 2; Mock.active := []; Mock.committed := [];
           Mock.rolled_back := []; Mock.broken := true |}
        [OpBeginTx Mock.ctx; OpTxFunc 1; OpCommit 1].
Proof. reflexivity. Qed.

(** A context that is already cancelled: beginning fails. *)
Lemma begin_failure_is_returned_witness :
  BeginTx Mock.db (context.cancelled Mock.ctx) Mock.fresh =
    ((0, Some "context canceled"%string), Mock.fresh) /\
  outcome (DoContext (context.cancelled Mock.ctx) Mock.db Mock.succeeding Mock.fresh) =
    Return (Some "context canceled"%string).
Proof.
  split; [reflexivity|].
  apply (begin_failure_is_returned string string Mock.state nat
           (context.cancelled Mock.ctx) Mock.db Mock.succeeding
           Mock.fresh Mock.fresh 0 "context canceled"%string).
  reflexivity.
Defined.

Lemma nil_panic_commits_witness :
  BeginTx Mock.db Mock.ctx Mock.fresh = ((1, None), Mock.begun) /\
  Mock.panicking_nil 1 Mock.begun = (Panic None, Mock.begun) /\
  Commit Mock.db 1 Mock.begun = (None, snd (Mock.commit 1 Mock.begun)) /\
  outcome (DoContext Mock.ctx Mock.db Mock.panicking_nil Mock.fresh) = Return None.
Proof.
  split; [reflexivity | split; [reflexivity | split; [reflexivity|]]].
  apply (nil_panic_commits string string Mock.state nat
           Mock.ctx Mock.db Mock.panicking_nil Mock.fresh Mock.begun Mock.begun
           (snd (Mock.commit 1 Mock.begun)) 1 None); reflexivity.
Defined.

(** A rollback that fails: the connection is lost during the unit of
    work, which returns an error. *)
Lemma rollback_failure_is_discarded_witness :
  BeginTx Mock.db Mock.ctx Mock.fresh = ((1, None), Mock.begun) /\
  Mock.failing_offline 1 Mock.begun =
    (Return (Some Mock.AnError), Mock.begun_offline) /\
  Rollback Mock.db 1 Mock.begun_offline =
    (Some Mock.ErrBadConn, snd (Mock.rollback 1 Mock.begun_offline)) /\
  outcome (DoContext Mock.ctx Mock.db Mock.failing_offline Mock.fresh) =
    Return (Some Mock.AnError) /\
  outcome (DoContext Mock.ctx (with_rollback Mock.db Mock.failing_rollback)
             Mock.failing_offline Mock.fresh) =
    Return (Some Mock.AnError).
Proof.
  split; [reflexivity | split; [reflexivity | split; [reflexivity|]]].
  destruct (rollback_failure_is_discarded string string Mock.state nat
              Mock.ctx Mock.db Mock.failing_offline
              Mock.fresh Mock.begun Mock.begun_offline
              (snd (Mock.rollback 1 Mock.begun_offline)) 1
              (Return (Some Mock.AnError)) (Some Mock.ErrBadConn)
              Mock.failing_rollback
              eq_refl eq_refl
              (or_introl (ex_intro _ Mock.AnError eq_refl)) eq_refl)
    as [Hrun [Hother _]].
  split; [now rewrite Hrun | exact Hother].
Defined.

Lemma no_retry_witness :
  BeginTx Mock.db Mock.ctx Mock.fresh = ((1, None), Mock.begun) /\
  Mock.succeeding_offline 1 Mock.begun = (Return None, Mock.begun_offline) /\
  Commit Mock.db 1 Mock.begun_offline =
    (Some Mock.ErrBadConn, snd (Mock.commit 1 Mock.begun_offline)) /\
  DoContext Mock.ctx Mock.db Mock.succeeding_offline Mock.fresh =
    Run (Return (Some Mock.ErrBadConn)) (snd (Mock.commit 1 Mock.begun_offline))
        [OpBeginTx Mock.ctx; OpTxFunc 1; OpCommit 1].
Proof.
  split; [reflexivity | split; [reflexivity | split; [reflexivity|]]].
  apply (proj2 (proj2 (proj2 (proj2 (proj2 (proj2
           (no_retry string string Mock.state nat
              Mock.ctx Mock.db Mock.succeeding_offline Mock.fresh)))))))
    with (s1 := Mock.begun) (s2 := Mock.begun_offline); reflexivity.
Defined.

(** ** Reading a run backwards

    What the result and the calls of [DoContext] tell its caller about
    what happened inside. *)

Section Inversion.

Variables E P S Tx : Type.
Variable ctx : context.Context.
Variable db : DB E S Tx.
Variable txFunc : TxFunc E P S Tx.

(** The four runs of [DoContext]. *)
Lemma DoContext_cases (s : S) :
  (exists tx e s1,
     BeginTx db ctx s = ((tx, Some e), s1) /\
     DoContext ctx db txFunc s = Run (Return (Some e)) s1 [OpBeginTx ctx]) \/
  (exists tx s1 s2 e,
     BeginTx db ctx s = ((tx, None), s1) /\
     txFunc tx s1 = (Return (Some e), s2) /\
     DoContext ctx db txFunc s =
       Run (Return (Some e)) (snd (Rollback db tx s2))
           [OpBeginTx ctx; OpTxFunc tx; OpRollback tx]) \/
  (exists tx s1 s2 v,
     BeginTx db ctx s = ((tx, None), s1) /\
     txFunc tx s1 = (Panic (Some v), s2) /\
     DoContext ctx db txFunc s =
       Run (Panic (Some v)) (snd (Rollback db tx s2))
           [OpBeginTx ctx; OpTxFunc tx; OpRollback tx]) \/
  (exists tx s1 s2 r,
     BeginTx db ctx s = ((tx, None), s1) /\
     txFunc tx s1 = (r, s2) /\
     ended_nil r /\
     DoContext ctx db txFunc s =
       Run (Return (fst (Commit db tx s2))) (snd (Commit db tx s2))
           [OpBeginTx ctx; OpTxFunc tx; OpCommit tx]).
Proof.
  destruct (BeginTx db ctx s) as [[tx [e|]] s1] eqn:Hb.
  - left. exists tx, e, s1. split; [reflexivity|].
    exact (DoContext_begin_failed _ _ _ _ ctx db txFunc _ _ _ _ Hb).
  - destruct (txFunc tx s1) as [r s2] eqn:Hw.
    destruct (result_cases E P r) as [[e ->]|[->|[[v ->]| ->]]].
    + right; left. exists tx, s1, s2, e. repeat split; trivial.
      exact (DoContext_work_failed _ _ _ _ ctx db txFunc _ _ _ _ _ Hb Hw).
    + right; right; right. exists tx, s1, s2, (Return None).
      repeat split; trivial; [now left|].
      exact (DoContext_work_succeeded _ _ _ _ ctx db txFunc _ _ _ _ Hb Hw).
    + right; right; left. exists tx, s1, s2, v. repeat split; trivial.
      exact (DoContext_work_panicked _ _ _ _ ctx db txFunc _ _ _ _ _ Hb Hw).
    + right; right; right. exists tx, s1, s2, (Panic None).
      repeat split; trivial; [now right|].
      exact (DoContext_work_panicked_nil _ _ _ _ ctx db txFunc _ _ _ _ Hb Hw).
Qed.

Ltac by_cases s :=
  destruct (DoContext_cases s)
    as [(tx0 & e0 & s1 & Hb & Hrun)
       |[(tx0 & s1 & s2 & e0 & Hb & Hw & Hrun)
       |[(tx0 & s1 & s2 & v0 & Hb & Hw & Hrun)
        |(tx0 & s1 & s2 & r0 & Hb & Hw & Hnil & Hrun)]]].

Ltac in_calls H :=
  repeat match type of H with
         | _ \/ _ => destruct H as [H | H]
         | False => contradiction
         | _ = _ => try discriminate H
         end.

(** X1. When the unit of work panics with a non-nil payload, the helper
    begins, calls the unit of work, rolls back on the store the unit of
    work left, never commits, and panics with that same payload. *)
Theorem panic_rolls_back_and_is_raised_again
    (s s1 s2 s3 : S) (tx : Tx) (v : P) (rerr : error E) :
  BeginTx db ctx s = ((tx, None), s1) ->
  txFunc tx s1 = (Panic (Some v), s2) ->
  Rollback db tx s2 = (rerr, s3) ->
  outcome (DoContext ctx db txFunc s) = Panic (Some v) /\
  ops (DoContext ctx db txFunc s) = [OpBeginTx ctx; OpTxFunc tx; OpRollback tx] /\
  count is_commit (ops (DoContext ctx db txFunc s)) = 0 /\
  store (DoContext ctx db txFunc s) = s3.
Proof.
  intros Hb Hw Hr.
  rewrite (DoContext_work_panicked _ _ _ _ _ _ _ _ _ _ _ _ Hb Hw), Hr.
  repeat split.
Qed.

(** X2. The helper panics only when the unit of work did, with a non-nil
    payload, and then with that payload and after a rollback.  It never
    panics with nil. *)
Theorem panic_comes_from_unit_of_work (s : S) (v : any P) :
  outcome (DoContext ctx db txFunc s) = Panic v ->
  exists tx s1 s2 p,
    v = Some p /\
    BeginTx db ctx s = ((tx, None), s1) /\
    txFunc tx s1 = (Panic (Some p), s2) /\
    ops (DoContext ctx db txFunc s) = [OpBeginTx ctx; OpTxFunc tx; OpRollback tx] /\
    store (DoContext ctx db txFunc s) = snd (Rollback db tx s2).
Proof.
  intros H. by_cases s; rewrite Hrun in *; cbn in H; try discriminate.
  injection H as <-. exists tx0, s1, s2, v0. repeat split; trivial.
Qed.

(** X3. A non-nil error returned by the helper is the error of the begin,
    or the error the unit of work returned, or the error of the commit
    that followed a unit of work ending with nil. *)
Theorem returned_error_origin (s : S) (e : E) :
  outcome (DoContext ctx db txFunc s) = Return (Some e) ->
  (exists tx s1, BeginTx db ctx s = ((tx, Some e), s1)) \/
  (exists tx s1 s2,
     BeginTx db ctx s = ((tx, None), s1) /\
     txFunc tx s1 = (Return (Some e), s2)) \/
  (exists tx s1 s2 r,
     BeginTx db ctx s = ((tx, None), s1) /\
     txFunc tx s1 = (r, s2) /\
     ended_nil r /\
     fst (Commit db tx s2) = Some e).
Proof.
  intros H. by_cases s; rewrite Hrun in H; cbn in H; try discriminate.
  - injection H as <-. left. eauto.
  - injection H as <-. right; left. eauto.
  - injection H as H. right; right. exists tx0, s1, s2, r0. auto.
Qed.

(** X4. When the helper returns nil, the transaction it began has been
    committed and the commit succeeded: the unit of work ended with nil,
    the last call is the commit, and the store is the one that commit
    left. *)
Theorem nil_means_committed (s : S) :
  outcome (DoContext ctx db txFunc s) = Return None ->
  exists tx s1 s2 r,
    BeginTx db ctx s = ((tx, None), s1) /\
    txFunc tx s1 = (r, s2) /\
    ended_nil r /\
    fst (Commit db tx s2) = None /\
    ops (DoContext ctx db txFunc s) = [OpBeginTx ctx; OpTxFunc tx; OpCommit tx] /\
    store (DoContext ctx db txFunc s) = snd (Commit db tx s2).
Proof.
  intros H. by_cases s; rewrite Hrun in *; cbn in H; try discriminate.
  injection H as H. exists tx0, s1, s2, r0. repeat split; trivial.
Qed.


(** X6. A rollback among the calls of the helper means that the begin
    succeeded with that transaction and that the unit of work returned a
    non-nil error or panicked with a non-nil payload on it. *)
Theorem rollback_only_after_non_nil (s : S) (tx : Tx) :
  In (OpRollback tx) (ops (DoContext ctx db txFunc s)) ->
  exists s1 s2 r,
    BeginTx db ctx s = ((tx, None), s1) /\
    txFunc tx s1 = (r, s2) /\
    ended_non_nil r.
Proof.
  intros H. by_cases s; rewrite Hrun in H; cbn in H; in_calls H.
  - injection H as <-. exists s1, s2, (Return (Some e0)).
    repeat split; trivial. left; eauto.
  - injection H as <-. exists s1, s2, (Panic (Some v0)).
    repeat split; trivial. right; eauto.
Qed.

End Inversion.

(** ** What a run depends on *)

Section Locality.

Variables E P S Tx : Type.
Variable db : DB E S Tx.
Variable txFunc : TxFunc E P S Tx.

Ltac unfold_run :=
  unfold DoContext, bind, call, invoke, defer_return, ret, panic, recover.


(** X8. Once the transaction is begun, the unit of work is called
    exactly once, on the handle the begin returned and on the store the
    begin left: a unit of work that does the same there gives the same
    run, whatever it does elsewhere. *)
Theorem unit_of_work_called_once_on_begun_tx
    (ctx : context.Context) (other : TxFunc E P S Tx) (s s1 : S) (tx : Tx) :
  BeginTx db ctx s = ((tx, None), s1) ->
  other tx s1 = txFunc tx s1 ->
  count is_txfunc (ops (DoContext ctx db txFunc s)) = 1 /\
  In (OpTxFunc tx) (ops (DoContext ctx db txFunc s)) /\
  DoContext ctx db other s = DoContext ctx db txFunc s.
Proof.
  intros Hb Hsame.
  destruct (DoContext_begun_ops _ _ _ _ ctx db txFunc s s1 tx Hb) as [Hops | Hops];
    rewrite Hops; (split; [reflexivity | split; [cbn; auto|]]);
    unfold_run; rewrite Hb; cbn; rewrite Hsame; reflexivity.
Qed.

(** X9. The helper finalizes the transaction it began and no other: a
    database handle that begins alike, and commits and rolls back that
    one transaction alike, gives the same run. *)
Theorem only_the_begun_transaction_is_finalized
    (ctx : context.Context) (db' : DB E S Tx) (s s1 : S) (tx : Tx) :
  BeginTx db ctx s = ((tx, None), s1) ->
  BeginTx db' ctx s = ((tx, None), s1) ->
  (forall st, Commit db' tx st = Commit db tx st) ->
  (forall st, Rollback db' tx st = Rollback db tx st) ->
  DoContext ctx db' txFunc s = DoContext ctx db txFunc s.
Proof.
  intros Hb Hb' Hc Hr. unfold_run. rewrite Hb, Hb'. cbn.
  destruct (txFunc tx s1) as [[[e|]|[v|]] s2]; cbn;
    rewrite ?Hc, ?Hr; reflexivity.
Qed.

End Locality.

(** The properties above on the in-memory database. *)

Lemma panic_rolls_back_and_is_raised_again_witness :
  BeginTx Mock.db Mock.ctx Mock.fresh = ((1, None), Mock.begun) /\
  Mock.panicking_offline 1 Mock.begun =
    (Panic (Some Mock.AnError), Mock.begun_offline) /\
  Rollback Mock.db 1 Mock.begun_offline =
    (Some Mock.ErrBadConn, snd (Mock.rollback 1 Mock.begun_offline)) /\
  outcome (DoContext Mock.ctx Mock.db Mock.panicking_offline Mock.fresh) =
    Panic (Some Mock.AnError).
Proof.
  split; [reflexivity | split; [reflexivity | split; [reflexivity|]]].
  apply (panic_rolls_back_and_is_raised_again string string Mock.state nat
           Mock.ctx Mock.db Mock.panicking_offline
           Mock.fresh Mock.begun Mock.begun_offline
           (snd (Mock.rollback 1 Mock.begun_offline)) 1 Mock.AnError
           (Some Mock.ErrBadConn)); reflexivity.
Defined.

Lemma panic_comes_from_unit_of_work_witness :
  outcome (DoContext Mock.ctx Mock.db Mock.panicking Mock.fresh) =
    Panic (Some Mock.AnError) /\
  exists tx s1 s2 p,
    Some Mock.AnError = Some p /\
    BeginTx Mock.db Mock.ctx Mock.fresh = ((tx, None), s1) /\
    Mock.panicking tx s1 = (Panic (Some p), s2) /\
    ops (DoContext Mock.ctx Mock.db Mock.panicking Mock.fresh) =
      [OpBeginTx Mock.ctx; OpTxFunc tx; OpRollback tx] /\
    store (DoContext Mock.ctx Mock.db Mock.panicking Mock.fresh) =
      snd (Rollback Mock.db tx s2).
Proof.
  split; [reflexivity|].
  apply (panic_comes_from_unit_of_work string string Mock.state nat
           Mock.ctx Mock.db Mock.panicking Mock.fresh (Some Mock.AnError)).
  reflexivity.
Defined.

Lemma returned_error_origin_witness :
  outcome (DoContext Mock.ctx Mock.db Mock.succeeding_offline Mock.fresh) =
    Return (Some Mock.ErrBadConn) /\
  ((exists tx s1,
      BeginTx Mock.db Mock.ctx Mock.fresh = ((tx, Some Mock.ErrBadConn), s1)) \/
   (exists tx s1 s2,
      BeginTx Mock.db Mock.ctx Mock.fresh = ((tx, None), s1) /\
      Mock.succeeding_offline tx s1 = (Return (Some Mock.ErrBadConn), s2)) \/
   (exists tx s1 s2 r,
      BeginTx Mock.db Mock.ctx Mock.fresh = ((tx, None), s1) /\
      Mock.succeeding_offline tx s1 = (r, s2) /\
      ended_nil r /\
      fst (Commit Mock.db tx s2) = Some Mock.ErrBadConn)).
Proof.
  split; [reflexivity|].
  apply (returned_error_origin string string Mock.state nat
           Mock.ctx Mock.db Mock.succeeding_offline Mock.fresh Mock.ErrBadConn).
  reflexivity.
Defined.

Lemma nil_means_committed_witness :
  outcome (DoContext Mock.ctx Mock.db Mock.succeeding Mock.fresh) = Return None /\
  exists tx s1 s2 r,
    BeginTx Mock.db Mock.ctx Mock.fresh = ((tx, None), s1) /\
    Mock.succeeding tx s1 = (r, s2) /\
    ended_nil r /\
    fst (Commit Mock.db tx s2) = None /\
    ops (DoContext Mock.ctx Mock.db Mock.succeeding Mock.fresh) =
      [OpBeginTx Mock.ctx; OpTxFunc tx; OpCommit tx] /\
    store (DoContext Mock.ctx Mock.db Mock.succeeding Mock.fresh) =
      snd (Commit Mock.db tx s2).
Proof.
  split; [reflexivity|].
  apply (nil_means_committed string string Mock.state nat
           Mock.ctx Mock.db Mock.succeeding Mock.fresh).
  reflexivity.
Defined.


Lemma rollback_only_after_non_nil_witness :
  In (OpRollback 1) (ops (DoContext Mock.ctx Mock.db Mock.failing Mock.fresh)) /\
  exists s1 s2 r,
    BeginTx Mock.db Mock.ctx Mock.fresh = ((1, None), s1) /\
    Mock.failing 1 s1 = (r, s2) /\
    ended_non_nil r.
Proof.
  assert (H : In (OpRollback 1)
                (ops (DoContext Mock.ctx Mock.db Mock.failing Mock.fresh))).
  { cbn. right. right. left. reflexivity. }
  split; [exact H|].
  exact (rollback_only_after_non_nil string string Mock.state nat
           Mock.ctx Mock.db Mock.failing Mock.fresh 1 H).
Defined.


(** A unit of work that fails on transaction 1 and succeeds on the others. *)
Lemma unit_of_work_called_once_on_begun_tx_witness :
  BeginTx Mock.db Mock.ctx Mock.fresh = ((1, None), Mock.begun) /\
  (fun (tx : nat) (s : Mock.state) =>
     if Nat.eqb tx 1 then Mock.failing tx s else Mock.succeeding tx s)
    1 Mock.begun = Mock.failing 1 Mock.begun /\
  DoContext Mock.ctx Mock.db
    (fun (tx : nat) (s : Mock.state) =>
       if Nat.eqb tx 1 then Mock.failing tx s else Mock.succeeding tx s)
    Mock.fresh =
  DoContext Mock.ctx Mock.db Mock.failing Mock.fresh.
Proof.
  split; [reflexivity | split; [reflexivity|]].
  apply (unit_of_work_called_once_on_begun_tx string string Mock.state nat
           Mock.db Mock.failing Mock.ctx
           (fun (tx : nat) (s : Mock.state) =>
              if Nat.eqb tx 1 then Mock.failing tx s else Mock.succeeding tx s)
           Mock.fresh Mock.begun 1); reflexivity.
Defined.

(** A handle whose operations fail on every transaction but 1. *)
Lemma only_the_begun_transaction_is_finalized_witness :
  DoContext Mock.ctx
    {| BeginTx := Mock.begin_tx;
       Commit := fun tx s =>
         if Nat.eqb tx 1 then Mock.commit tx s else (Some Mock.ErrBadConn, s);
       Rollback := fun tx s =>
         if Nat.eqb tx 1 then Mock.rollback tx s else (Some Mock.ErrBadConn, s) |}
    Mock.succeeding Mock.fresh =
  DoContext Mock.ctx Mock.db Mock.succeeding Mock.fresh.
Proof.
  apply (only_the_begun_transaction_is_finalized string string Mock.state nat
           Mock.db Mock.succeeding Mock.ctx
           {| BeginTx := Mock.begin_tx;
              Commit := fun tx s =>
                if Nat.eqb tx 1 then Mock.commit tx s else (Some Mock.ErrBadConn, s);
              Rollback := fun tx s =>
                if Nat.eqb tx 1 then Mock.rollback tx s else (Some Mock.ErrBadConn, s) |}
           Mock.fresh Mock.begun 1); reflexivity.
Defined.
